(** * CodepipeStack: the declared delivery pipeline and its resources

    A shallow embedding of [codepipe_stack.py].  The Python constructor
    [CodepipeStack.__init__] builds a tree of constructs under the stack
    ([self]) by a sequence of constructor calls and of method calls that
    mutate constructs created earlier.  Here the stack is an explicit
    store from construct ids to constructs, a Python variable holding a
    construct is the id under which the construct is registered, and
    [__init__] is a computation in a state and error monad over that
    store.

    The model holds what the text of the constructor asks for: the
    constructs it creates, with the arguments it gives them, and the
    permissions it gives by its own [grant_read] calls.  What the
    library does on its own account is not part of it: the check of the
    stack name, the check that the directory given to
    [Code.from_directory] exists, the constructs and the permissions
    that a construct adds by itself when it is created (an instance for
    its machine image, a pipeline for its actions). *)

From Stdlib Require Import ZArith.
From stdpp Require Import gmap strings list fin_maps.

Set Warnings "-register-all".

Local Open Scope string_scope.
Local Open Scope list_scope.
Local Open Scope stdpp_scope.

(** ** Tokens and strings that embed them *)

(** An attribute of a construct whose value is only known at deploy time
    ([bucket.bucket_name], [instance.instance_public_ip], ...).  Reading
    such a property in Python yields a string that stands for the
    attribute of that very object. *)
Inductive Attribute :=
| BucketName
| ProjectName
| ProjectArn
| InstancePublicIp.

Record Token := { target : string; attribute : Attribute }.

(** A Python [str] that may hold tokens: literal pieces and tokens, in
    order.  [+] on such strings is concatenation of the pieces. *)
Inductive Fragment :=
| Lit (s : string)
| Tok (t : Token).

Abbreviation Str := (list Fragment).

Definition lit (s : string) : Str := [Lit s].

(** The tokens a string mentions, left to right. *)
Definition tokens (s : Str) : list Token :=
  omap (λ f, match f with Tok t => Some t | Lit _ => None end) s.

(** ** JSON-like objects (Python dict / list / str literals) *)

Inductive Json :=
| JStr (s : string)
| JList (l : list Json)
| JObj (fields : list (string * Json)).

(** [d[k]] on a dict literal: the first field with that key. *)
Fixpoint assoc (k : string) (fields : list (string * Json)) : option Json :=
  match fields with
  | [] => None
  | (k', v) :: rest => if String.eqb k k' then Some v else assoc k rest
  end.

Definition get (k : string) (j : Json) : option Json :=
  match j with
  | JObj fields => assoc k fields
  | _ => None
  end.

(** The strings of a list of strings; elements that are not strings are
    dropped. *)
Definition strings_of (j : Json) : list string :=
  match j with
  | JList l => omap (λ x, match x with JStr s => Some s | _ => None end) l
  | _ => []
  end.

(** ** aws_codecommit *)

Module codecommit.

(** [Code.from_directory(directory_path, branch)] *)
Inductive Code :=
| from_directory (directory_path : string) (branch : string).

Module Repository.
Record t := { repository_name : string; code : Code }.
End Repository.

End codecommit.

(** ** aws_s3 *)

Module s3.

Module Bucket.
(** [bucket.bucket_name] of the bucket registered under [b]. *)
Definition bucket_name (b : string) : Str :=
  [Tok {| target := b; attribute := BucketName |}].
End Bucket.

End s3.

(** ** aws_codebuild *)

Module codebuild.

Module BuildSpec.
Record t := { spec : Json }.
Definition from_object (value : Json) : t := {| spec := value |}.
End BuildSpec.

Inductive LinuxBuildImage :=
| STANDARD_5_0.

Module BuildEnvironment.
Record t := { build_image : LinuxBuildImage }.
End BuildEnvironment.

Module BuildEnvironmentVariable.
Record t := { value : Str }.
End BuildEnvironmentVariable.

Module PipelineProject.
Record t := {
  project_name : string;
  build_spec : BuildSpec.t;
  environment : BuildEnvironment.t;
  environment_variables : gmap string BuildEnvironmentVariable.t
}.
End PipelineProject.

(** The phases of a build, in the order in which a build runs them. *)
Definition phase_order : list string :=
  ["install"; "pre_build"; "build"; "post_build"].

(** [spec["phases"][phase]["commands"]], empty when a key is missing. *)
Definition phase_commands (bs : BuildSpec.t) (phase : string) : list string :=
  match get "phases" (BuildSpec.spec bs) with
  | Some phases =>
      match get phase phases with
      | Some p =>
          match get "commands" p with
          | Some cs => strings_of cs
          | None => []
          end
      | None => []
      end
  | None => []
  end.

(** The whole command list of a build: the commands of each phase, phase
    after phase. *)
Definition commands (bs : BuildSpec.t) : list string :=
  concat (map (phase_commands bs) phase_order).

(** [spec["artifacts"]["files"]] and [spec["artifacts"]["base-directory"]]. *)
Definition artifact_files (bs : BuildSpec.t) : option (list string) :=
  match get "artifacts" (BuildSpec.spec bs) with
  | Some a => strings_of <$> get "files" a
  | None => None
  end.

Definition artifact_base_directory (bs : BuildSpec.t) : option string :=
  match get "artifacts" (BuildSpec.spec bs) with
  | Some a =>
      match get "base-directory" a with
      | Some (JStr d) => Some d
      | _ => None
      end
  | None => None
  end.

End codebuild.

(** ** aws_iam and aws_lambda

    Both modules are imported by the stack; the only code that uses them
    is commented out, so [__init__] below never builds these values. *)

Module iam.

Inductive Effect :=
| ALLOW
| DENY.

Module PolicyStatement.
Record t := { effect : Effect; actions : list string; resources : list Str }.
End PolicyStatement.

End iam.

Module lambda_.

Inductive Runtime :=
| PYTHON_3_9.

Inductive Code :=
| from_asset (path : string).

Module Function.
Record t := {
  runtime : Runtime;
  code : Code;
  handler : string;
  environment : gmap string Str;
  initial_policy : list iam.PolicyStatement.t
}.
End Function.

End lambda_.

(** ** aws_ec2 *)

Module ec2.

Module Vpc.
Record t := { cidr : string }.
End Vpc.

(** [ec2.Peer]: who may connect. *)
Inductive Peer :=
| ipv4 (cidr_ip : string)
| ipv6 (cidr_ipv6 : string).

(** [Peer.any_ipv4()] is the whole IPv4 address space. *)
Definition any_ipv4 : Peer := ipv4 "0.0.0.0/0".

Inductive Protocol :=
| TCP
| UDP
| ALL.

(** [ec2.Port]: a protocol and an inclusive range of ports. *)
Module Port.
Record t := { protocol : Protocol; from_port : Z; to_port : Z }.
Definition tcp (port : Z) : t :=
  {| protocol := TCP; from_port := port; to_port := port |}.
End Port.

Module IngressRule.
Record t := {
  peer : Peer;
  connection : Port.t;
  description : string;
  remote_rule : bool
}.

(** Whether the rule lets a TCP connection to [port] in. *)
Definition admits_tcp (r : t) (port : Z) : bool :=
  match Port.protocol (connection r) with
  | TCP | ALL =>
      ((Port.from_port (connection r) <=? port)
       && (port <=? Port.to_port (connection r)))%Z
  | UDP => false
  end.
End IngressRule.

Module SecurityGroup.
(** [ingress_rules] starts empty and grows by [add_ingress_rule]. *)
Record t := {
  vpc : string;
  allow_all_outbound : bool;
  ingress_rules : list IngressRule.t
}.
End SecurityGroup.

Module UserData.
(** [UserData.for_linux(shebang=...)]: a script with no commands yet. *)
Record t := { shebang : string; lines : list Str }.
Definition for_linux (shebang : string) : t :=
  {| shebang := shebang; lines := [] |}.
End UserData.

Inductive AmazonLinuxGeneration :=
| AMAZON_LINUX
| AMAZON_LINUX_2.

Inductive MachineImage :=
| AmazonLinuxImage (generation : AmazonLinuxGeneration).

Inductive InstanceType :=
| instance_type_of (instance_type_identifier : string).

Module Instance.
Record t := {
  instance_type : InstanceType;
  machine_image : MachineImage;
  vpc : string;
  security_group : string;
  user_data : UserData.t
}.

(** [instance.instance_public_ip] of the instance registered under [i]. *)
Definition instance_public_ip (i : string) : Str :=
  [Tok {| target := i; attribute := InstancePublicIp |}].
End Instance.

End ec2.

(** ** aws_codepipeline *)

Module pipeline.

Module Artifact.
(** [pipeline.Artifact(artifact_name)] *)
Record t := { artifact_name : string }.
End Artifact.

Module ArtifactPath.
(** [pipeline.ArtifactPath(artifact, file_name)] *)
Record t := { artifact : Artifact.t; file_name : string }.
End ArtifactPath.

Module StageProps.
(** A stage over any type of actions (the [IAction] interface). *)
Record t (Action : Type) := { stage_name : string; actions : list Action }.
Arguments stage_name {Action} _.
Arguments actions {Action} _.
End StageProps.

Module Pipeline.
Record t (Action : Type) := {
  pipeline_name : string;
  stages : list (StageProps.t Action)
}.
Arguments pipeline_name {Action} _.
Arguments stages {Action} _.
End Pipeline.

End pipeline.

(** ** aws_codepipeline_actions *)

Module pipelineactions.
Import pipeline.

(** The action classes of the module, with their keyword arguments.
    Constructs are passed as the ids they are registered under.
    [LambdaInvokeAction] is the class of the commented-out
    [trigger_lambda]. *)
Inductive Action :=
| CodeCommitSourceAction
    (action_name : string) (branch : string) (repository : string)
    (output : Artifact.t)
| CodeBuildAction
    (action_name : string) (project : string) (input : Artifact.t)
    (outputs : list Artifact.t)
| S3DeployAction
    (action_name : string) (input : Artifact.t) (bucket : string)
    (extract : bool)
| CloudFormationCreateUpdateStackAction
    (action_name : string) (template_path : ArtifactPath.t)
    (stack_name : string) (admin_permissions : bool)
| LambdaInvokeAction
    (action_name : string) (lambda_ : string)
    (user_parameters : gmap string Str).

(** The four kinds of work of a delivery pipeline. *)
Inductive Variant :=
| SourceCheckout
| BuildExecute
| ArtifactPublish
| InfraApply.

Definition variant (a : Action) : option Variant :=
  match a with
  | CodeCommitSourceAction _ _ _ _ => Some SourceCheckout
  | CodeBuildAction _ _ _ _ => Some BuildExecute
  | S3DeployAction _ _ _ _ => Some ArtifactPublish
  | CloudFormationCreateUpdateStackAction _ _ _ _ => Some InfraApply
  | LambdaInvokeAction _ _ _ => None
  end.

Definition is_lambda_invoke (a : Action) : bool :=
  match a with
  | LambdaInvokeAction _ _ _ => true
  | _ => false
  end.

(** The artifacts an action reads.  A stack update reads the artifact
    its template path points into. *)
Definition inputs (a : Action) : list Artifact.t :=
  match a with
  | CodeCommitSourceAction _ _ _ _ => []
  | CodeBuildAction _ _ input _ => [input]
  | S3DeployAction _ input _ _ => [input]
  | CloudFormationCreateUpdateStackAction _ template_path _ _ =>
      [ArtifactPath.artifact template_path]
  | LambdaInvokeAction _ _ _ => []
  end.

(** The artifacts an action writes. *)
Definition outputs (a : Action) : list Artifact.t :=
  match a with
  | CodeCommitSourceAction _ _ _ output => [output]
  | CodeBuildAction _ _ _ outputs => outputs
  | S3DeployAction _ _ _ _ => []
  | CloudFormationCreateUpdateStackAction _ _ _ _ => []
  | LambdaInvokeAction _ _ _ => []
  end.

Definition input_names (a : Action) : list string :=
  Artifact.artifact_name <$> inputs a.

Definition output_names (a : Action) : list string :=
  Artifact.artifact_name <$> outputs a.

(** The artifact names a stage reads and writes: those of its actions,
    in the order of the actions. *)
Definition input_artifact_names (s : StageProps.t Action) : list string :=
  StageProps.actions s ≫= input_names.

Definition output_artifact_names (s : StageProps.t Action) : list string :=
  StageProps.actions s ≫= output_names.

(** Every artifact name read by a stage of [stages] is in [produced] or
    is written by a stage that comes before it in [stages]. *)
Fixpoint inputs_produced_earlier
    (produced : list string) (stages : list (StageProps.t Action)) : bool :=
  match stages with
  | [] => true
  | s :: rest =>
      forallb (λ n, bool_decide (n ∈ produced)) (input_artifact_names s)
      && inputs_produced_earlier (produced ++ output_artifact_names s) rest
  end.

End pipelineactions.

(** ** The construct tree of a stack *)

(** What can be registered under the stack. *)
Inductive Construct :=
| Repository (props : codecommit.Repository.t)
| Bucket
| PipelineProject (props : codebuild.PipelineProject.t)
| Function (props : lambda_.Function.t)
| Vpc (props : ec2.Vpc.t)
| SecurityGroup (props : ec2.SecurityGroup.t)
| Instance (props : ec2.Instance.t)
| Pipeline (props : pipeline.Pipeline.t pipelineactions.Action)
| CfnOutput (value : Str).

Definition is_function (c : Construct) : bool :=
  match c with
  | Function _ => true
  | _ => false
  end.

Definition is_bucket (c : Construct) : bool :=
  match c with
  | Bucket => true
  | _ => false
  end.

(** A permission given by [resource.grant_read(grantee)]. *)
Module Grant.
Inductive Access :=
| READ
| WRITE.
Record t := { resource : string; grantee : string; access : Access }.
End Grant.

(** The stack: its own id, the constructs that the constructor creates
    in its scope, by id, and the permissions given so far by
    [grant_read] calls, oldest first. *)
Record Stack := {
  construct_id : string;
  children : gmap string Construct;
  grants : list Grant.t
}.

Definition with_children
    (f : gmap string Construct → gmap string Construct) (st : Stack) : Stack :=
  {| construct_id := construct_id st;
     children := f (children st);
     grants := grants st |}.

Definition with_grants
    (f : list Grant.t → list Grant.t) (st : Stack) : Stack :=
  {| construct_id := construct_id st;
     children := children st;
     grants := f (grants st) |}.

(** ** The monad of [__init__]: state and exceptions *)

Inductive Error :=
| DuplicateId (id : string)
| NotA (class : string) (id : string).

Inductive Result (A : Type) :=
| Ok (a : A)
| Raise (e : Error).
Arguments Ok {A} a.
Arguments Raise {A} e.

Definition M (A : Type) : Type := Stack → Result (A * Stack).

#[global] Instance M_ret : MRet M := λ A a st, Ok (a, st).

#[global] Instance M_bind : MBind M := λ A B f m st,
  match m st with
  | Ok (a, st') => f a st'
  | Raise e => Raise e
  end.

Definition raise {A : Type} (e : Error) : M A := λ _, Raise e.

(** Registering a construct under the stack.  Two constructs of one
    scope cannot share an id. *)
Definition construct (id : string) (c : Construct) : M string := λ st,
  match children st !! id with
  | Some _ => Raise (DuplicateId id)
  | None => Ok (id, with_children (insert id c) st)
  end.

(** [sg.add_ingress_rule(peer, connection, description, remote_rule)] *)
Definition add_ingress_rule
    (sg : string) (peer : ec2.Peer) (connection : ec2.Port.t)
    (description : string) (remote_rule : bool) : M unit := λ st,
  match children st !! sg with
  | Some (SecurityGroup g) =>
      let rule :=
        {| ec2.IngressRule.peer := peer;
           ec2.IngressRule.connection := connection;
           ec2.IngressRule.description := description;
           ec2.IngressRule.remote_rule := remote_rule |} in
      let g' :=
        {| ec2.SecurityGroup.vpc := ec2.SecurityGroup.vpc g;
           ec2.SecurityGroup.allow_all_outbound :=
             ec2.SecurityGroup.allow_all_outbound g;
           ec2.SecurityGroup.ingress_rules :=
             ec2.SecurityGroup.ingress_rules g ++ [rule] |} in
      Ok ((), with_children (insert sg (SecurityGroup g')) st)
  | _ => Raise (NotA "SecurityGroup" sg)
  end.

(** [instance.user_data.add_commands(c1, c2, ...)]: the script held by
    the instance gets the commands appended. *)
Definition add_commands (instance : string) (commands : list Str) : M unit :=
  λ st,
  match children st !! instance with
  | Some (Instance i) =>
      let u := ec2.Instance.user_data i in
      let u' :=
        {| ec2.UserData.shebang := ec2.UserData.shebang u;
           ec2.UserData.lines := ec2.UserData.lines u ++ commands |} in
      let i' :=
        {| ec2.Instance.instance_type := ec2.Instance.instance_type i;
           ec2.Instance.machine_image := ec2.Instance.machine_image i;
           ec2.Instance.vpc := ec2.Instance.vpc i;
           ec2.Instance.security_group := ec2.Instance.security_group i;
           ec2.Instance.user_data := u' |} in
      Ok ((), with_children (insert instance (Instance i')) st)
  | _ => Raise (NotA "Instance" instance)
  end.

(** The classes with a [grant_read] method, and those that can be
    granted a permission. *)
Definition has_grant_read (c : Construct) : bool :=
  match c with
  | Repository _ | Bucket => true
  | _ => false
  end.

Definition is_grantable (c : Construct) : bool :=
  match c with
  | PipelineProject _ | Instance _ | Function _ => true
  | _ => false
  end.

(** [resource.grant_read(grantee)] *)
Definition grant_read (resource grantee : string) : M unit := λ st,
  match children st !! resource, children st !! grantee with
  | Some r, Some g =>
      if has_grant_read r && is_grantable g then
        Ok ((), with_grants
                  (λ gs, gs ++ [{| Grant.resource := resource;
                                   Grant.grantee := grantee;
                                   Grant.access := Grant.READ |}]) st)
      else if has_grant_read r then Raise (NotA "IGrantable" grantee)
      else Raise (NotA "grant_read" resource)
  | None, _ => Raise (NotA "grant_read" resource)
  | _, None => Raise (NotA "IGrantable" grantee)
  end.

(** ** The stack *)

Import pipeline pipelineactions.

(** The dict given to [BuildSpec.from_object]. *)
Definition build_spec_object : Json :=
  JObj [
    ("version", JStr "0.2");
    ("phases", JObj [
      ("install", JObj [
        ("runtime-versions", JObj [("python", JStr "3.9")]);
        ("commands", JList [JStr "pip install -r requirements.txt"])
      ]);
      ("build", JObj [
        ("commands", JList [
          JStr "echo Building the Python app...";
          JStr "python build.py"
        ])
      ])
    ]);
    ("artifacts", JObj [
      ("files", JList [JStr "**/*"]);
      ("base-directory", JStr "dist")
    ])
  ].

(** The body of [CodepipeStack.__init__], after the call to the
    constructor of [Stack], statement by statement.  The module-level
    [dirname] is not used by it. *)
Definition __init__ : M unit :=
  code_repo ← construct "CodeRepo" (Repository
    {| codecommit.Repository.repository_name := "simple-app-code-repo";
       codecommit.Repository.code := codecommit.from_directory "app" "main" |});
  artifact_bucket ← construct "ArtifactBucket" Bucket;
  build_project ← construct "BuildProject" (PipelineProject
    {| codebuild.PipelineProject.project_name := "PythonAppBuildProject";
       codebuild.PipelineProject.build_spec :=
         codebuild.BuildSpec.from_object build_spec_object;
       codebuild.PipelineProject.environment :=
         {| codebuild.BuildEnvironment.build_image := codebuild.STANDARD_5_0 |};
       codebuild.PipelineProject.environment_variables :=
         {[ "BUCKET_NAME" :=
              {| codebuild.BuildEnvironmentVariable.value :=
                   s3.Bucket.bucket_name artifact_bucket |} ]} |});
  grant_read code_repo build_project;;
  vpc ← construct "InstanceVpc" (Vpc {| ec2.Vpc.cidr := "10.0.0.0/16" |});
  instance_sg ← construct "InstanceSecurityGroup" (SecurityGroup
    {| ec2.SecurityGroup.vpc := vpc;
       ec2.SecurityGroup.allow_all_outbound := true;
       ec2.SecurityGroup.ingress_rules := [] |});
  add_ingress_rule instance_sg
    ec2.any_ipv4 (ec2.Port.tcp 22%Z) "Allow SSH access" false;;
  instance ← construct "AppInstance" (Instance
    {| ec2.Instance.instance_type := ec2.instance_type_of "t2.micro";
       ec2.Instance.machine_image := ec2.AmazonLinuxImage ec2.AMAZON_LINUX_2;
       ec2.Instance.vpc := vpc;
       ec2.Instance.security_group := instance_sg;
       ec2.Instance.user_data := ec2.UserData.for_linux "#!/bin/bash" |});
  add_commands instance [
    lit "yum install -y python3";
    lit "aws s3 cp s3://" ++ s3.Bucket.bucket_name artifact_bucket
      ++ lit "/dist/djangopro.tar.gz /tmp/djangopro.tar.gz";
    lit "tar -zxvf /tmp/djangopro.tar.gz -C /tmp";
    lit "cd /tmp/bloodbankmanagement";
    lit "python3 manage.py runserver 0.0.0.0:8000"
  ];;
  grant_read artifact_bucket instance;;
  code_pipeline ← construct "BuildDeployPipeline" (Pipeline
    {| Pipeline.pipeline_name := "PythonAppPipeline";
       Pipeline.stages := [
         {| StageProps.stage_name := "Source";
            StageProps.actions := [
              CodeCommitSourceAction "CodeCommit" "main" code_repo
                {| Artifact.artifact_name := "SourceOutput" |}
            ] |};
         {| StageProps.stage_name := "Build";
            StageProps.actions := [
              CodeBuildAction "Build" build_project
                {| Artifact.artifact_name := "SourceOutput" |}
                [{| Artifact.artifact_name := "BuildOutput" |}]
            ] |};
         {| StageProps.stage_name := "Deploy";
            StageProps.actions := [
              S3DeployAction "Deploy"
                {| Artifact.artifact_name := "BuildOutput" |}
                artifact_bucket true;
              CloudFormationCreateUpdateStackAction "UpdateStack"
                {| ArtifactPath.artifact :=
                     {| Artifact.artifact_name := "BuildOutput" |};
                   ArtifactPath.file_name := "template.yaml" |}
                "PythonAppStack" true
            ] |}
       ] |});
  _ ← construct "InstancePublicIp"
        (CfnOutput (ec2.Instance.instance_public_ip instance));
  mret ().

(** [super().__init__(scope, construct_id)]: a stack with that id and
    nothing in it.  The id is taken as it is given; the library's check
    of it is not modelled. *)
Definition Stack_init (construct_id : string) : Stack :=
  {| construct_id := construct_id; children := ∅; grants := [] |}.

(** [CodepipeStack(scope, construct_id)]: the stack once [__init__] has
    run, or the exception it raised. *)
Definition CodepipeStack (construct_id : string) : Result Stack :=
  match __init__ (Stack_init construct_id) with
  | Ok (_, st) => Ok st
  | Raise e => Raise e
  end.

Definition raises {A : Type} (r : Result A) : bool :=
  match r with
  | Raise _ => true
  | Ok _ => false
  end.

(** The stack the constructor leaves, for use once it is known not to
    raise. *)
Definition declared (construct_id : string) : Stack :=
  match CodepipeStack construct_id with
  | Ok st => st
  | Raise _ => Stack_init construct_id
  end.

(** ** Reading a stack *)

(** The constructs of one class, by id. *)
Definition pipelines (st : Stack) : gmap string (Pipeline.t Action) :=
  omap (λ c, match c with Pipeline p => Some p | _ => None end) (children st).

Definition functions (st : Stack) : gmap string lambda_.Function.t :=
  omap (λ c, match c with Function f => Some f | _ => None end) (children st).

Definition instances (st : Stack) : gmap string ec2.Instance.t :=
  omap (λ c, match c with Instance i => Some i | _ => None end) (children st).

(** The ids of the buckets. *)
Definition buckets (st : Stack) : gset string :=
  dom (filter (λ kc, is_bucket kc.2 = true) (children st)).

(** The outputs of the stack: each [CfnOutput] id with its value. *)
Definition stack_outputs (st : Stack) : gmap string Str :=
  omap (λ c, match c with CfnOutput v => Some v | _ => None end) (children st).

(** The permissions given to one grantee, oldest first. *)
Definition grants_of (st : Stack) (grantee : string) : list Grant.t :=
  filter (λ g, Grant.grantee g = grantee) (grants st).

(** The actions of all the stages of a pipeline, in order. *)
Definition all_actions (p : Pipeline.t Action) : list Action :=
  Pipeline.stages p ≫= StageProps.actions.

(** The commands run by an action: those of the build spec of its
    project for a build action, none for the other actions. *)
Definition action_commands (st : Stack) (a : Action) : list string :=
  match a with
  | CodeBuildAction _ project _ _ =>
      match children st !! project with
      | Some (PipelineProject pr) =>
          codebuild.commands (codebuild.PipelineProject.build_spec pr)
      | _ => []
      end
  | _ => []
  end.

(** The commands run by a stage: those of its actions, in order. *)
Definition stage_commands (st : Stack) (s : StageProps.t Action) : list string :=
  StageProps.actions s ≫= action_commands st.

(** The names of the artifacts written by the source actions of a
    pipeline: the artifacts a run starts from. *)
Definition source_artifact_names (p : Pipeline.t Action) : list string :=
  all_actions p ≫= (λ a,
    match variant a with
    | Some SourceCheckout => output_names a
    | _ => []
    end).

(** The artifact name [n], read at stage number [i] of [stages], is
    written by a stage with a smaller number. *)
Definition produced_before
    (stages : list (StageProps.t Action)) (i : nat) (n : string) : Prop :=
  ∃ (j : nat) (s : StageProps.t Action),
    (j < i)%nat ∧ stages !! j = Some s ∧ n ∈ output_artifact_names s.

(** ** Ids, classes and references *)

(** The name of the Python class of a construct. *)
Definition class_of (c : Construct) : string :=
  match c with
  | Repository _ => "Repository"
  | Bucket => "Bucket"
  | PipelineProject _ => "PipelineProject"
  | Function _ => "Function"
  | Vpc _ => "Vpc"
  | SecurityGroup _ => "SecurityGroup"
  | Instance _ => "Instance"
  | Pipeline _ => "Pipeline"
  | CfnOutput _ => "CfnOutput"
  end.

(** The [action_name] argument of an action. *)
Definition action_name (a : Action) : string :=
  match a with
  | CodeCommitSourceAction action_name _ _ _ => action_name
  | CodeBuildAction action_name _ _ _ => action_name
  | S3DeployAction action_name _ _ _ => action_name
  | CloudFormationCreateUpdateStackAction action_name _ _ _ => action_name
  | LambdaInvokeAction action_name _ _ => action_name
  end.




(** The class whose property an attribute is. *)
Definition attribute_class (a : Attribute) : string :=
  match a with
  | BucketName => "Bucket"
  | ProjectName | ProjectArn => "PipelineProject"
  | InstancePublicIp => "Instance"
  end.

(** A reference: the id of a construct and the class it is used as. *)
Definition token_refs (s : Str) : list (string * string) :=
  (λ t, (target t, attribute_class (attribute t))) <$> tokens s.

(** The constructs an action is given. *)
Definition action_refs (a : Action) : list (string * string) :=
  match a with
  | CodeCommitSourceAction _ _ repository _ => [(repository, "Repository")]
  | CodeBuildAction _ project _ _ => [(project, "PipelineProject")]
  | S3DeployAction _ _ bucket _ => [(bucket, "Bucket")]
  | CloudFormationCreateUpdateStackAction _ _ _ _ => []
  | LambdaInvokeAction _ lambda_ user_parameters =>
      (lambda_, "Function")
      :: ((map_to_list user_parameters).*2 ≫= token_refs)
  end.

(** The constructs a construct is given, directly or through a token in
    one of its strings. *)
Definition construct_refs (c : Construct) : list (string * string) :=
  match c with
  | Repository _ | Bucket | Vpc _ => []
  | PipelineProject pr =>
      (map_to_list (codebuild.PipelineProject.environment_variables pr)).*2
        ≫= (λ v, token_refs (codebuild.BuildEnvironmentVariable.value v))
  | Function f =>
      ((map_to_list (lambda_.Function.environment f)).*2 ≫= token_refs)
      ++ (lambda_.Function.initial_policy f ≫= (λ s,
            iam.PolicyStatement.resources s ≫= token_refs))
  | SecurityGroup g => [(ec2.SecurityGroup.vpc g, "Vpc")]
  | Instance i =>
      (ec2.Instance.vpc i, "Vpc")
      :: (ec2.Instance.security_group i, "SecurityGroup")
      :: (ec2.UserData.lines (ec2.Instance.user_data i) ≫= token_refs)
  | Pipeline p => all_actions p ≫= action_refs
  | CfnOutput value => token_refs value
  end.

(** A reference resolves in a stack when its id is registered there for
    a construct of its class. *)
Definition resolves (st : Stack) (r : string * string) : bool :=
  match children st !! r.1 with
  | Some c => String.eqb (class_of c) r.2
  | None => false
  end.

(** The commands of the phases a build spec declares, in the order in
    which the dict lists the phases. *)
Definition declared_commands (bs : codebuild.BuildSpec.t) : list string :=
  match get "phases" (codebuild.BuildSpec.spec bs) with
  | Some (JObj phases) =>
      phases ≫= (λ np,
        match get "commands" np.2 with
        | Some cs => strings_of cs
        | None => []
        end)
  | _ => []
  end.

(** The names of the phases a build spec declares. *)
Definition declared_phases (bs : codebuild.BuildSpec.t) : list string :=
  match get "phases" (codebuild.BuildSpec.spec bs) with
  | Some (JObj phases) => phases.*1
  | _ => []
  end.

(** * Properties of the declaration *)

(** Goals about the stack a run of the constructor leaves are closed by
    running it: the conjuncts are taken left to right, so that what an
    earlier one determines is known in the later ones. *)
Ltac run := vm_compute; reflexivity.

Ltac run_all :=
  repeat lazymatch goal with
         | |- _ ∧ _ => split; [run |]
         end;
  try run.

(** The calls of the body do not raise: the ids it registers its
    constructs under are distinct, and each method is called on a
    construct of the right class. *)
Lemma CodepipeStack_declared (id : string) :
  CodepipeStack id = Ok (declared id).
Proof.
  assert (raises (CodepipeStack id) = false) as Hok by run.
  unfold declared.
  destruct (CodepipeStack id); [reflexivity | discriminate Hok].
Qed.

(** The stack of a goal [∃ st ..., CodepipeStack id = Ok st ∧ ...] is
    [declared id]. *)
Ltac on_declared :=
  lazymatch goal with
  | |- context [CodepipeStack ?id] =>
      exists (declared id);
      repeat lazymatch goal with |- ex _ => eexists end;
      split; [exact (CodepipeStack_declared id) |]
  end.

(** ** Running the constructor *)

(** Registering under a free id succeeds and returns the id. *)
Lemma construct_fresh (id : string) (c : Construct) (st : Stack) :
  children st !! id = None →
  construct id c st = Ok (id, with_children (insert id c) st).
Proof. intros Hfree. unfold construct. by rewrite Hfree. Qed.

(** Registering under an id already in use raises. *)
Lemma construct_taken (id : string) (c : Construct) (st : Stack) :
  is_Some (children st !! id) →
  construct id c st = Raise (DuplicateId id).
Proof. intros [c' Hc']. unfold construct. by rewrite Hc'. Qed.

(** ** The pipeline *)

(** C1.  The stack declares one pipeline; it has exactly the three
    stages Source, Build and Deploy, in that order; the Source stage has
    a single action, a source checkout of branch "main" of the
    repository of the stack, whose output artifact is "SourceOutput". *)
Theorem pipeline_three_stages_source_checkout (id : string) :
  ∃ st p source build deploy repo r,
    CodepipeStack id = Ok st ∧
    map_to_list (pipelines st) = [("BuildDeployPipeline", p)] ∧
    Pipeline.stages p = [source; build; deploy] ∧
    StageProps.stage_name source = "Source" ∧
    StageProps.stage_name build = "Build" ∧
    StageProps.stage_name deploy = "Deploy" ∧
    StageProps.actions source =
      [CodeCommitSourceAction "CodeCommit" "main" repo
         {| Artifact.artifact_name := "SourceOutput" |}] ∧
    variant <$> StageProps.actions source = [Some SourceCheckout] ∧
    children st !! repo = Some (Repository r).
Proof. on_declared. run_all. Qed.

(** C2.  The action of the Build stage is a build that reads the
    artifact "SourceOutput" and declares the artifact "BuildOutput" as
    its output; the environment variables of its project bind
    "BUCKET_NAME" to the name of the bucket declared by the stack. *)
Theorem build_action_artifacts_and_bucket_name (id : string) :
  ∃ st p build a project pr bucket,
    CodepipeStack id = Ok st ∧
    map_to_list (pipelines st) = [("BuildDeployPipeline", p)] ∧
    Pipeline.stages p !! 1 = Some build ∧
    StageProps.stage_name build = "Build" ∧
    StageProps.actions build = [a] ∧
    variant a = Some BuildExecute ∧
    a = CodeBuildAction "Build" project
          {| Artifact.artifact_name := "SourceOutput" |}
          [{| Artifact.artifact_name := "BuildOutput" |}] ∧
    children st !! project = Some (PipelineProject pr) ∧
    codebuild.PipelineProject.environment_variables pr !! "BUCKET_NAME" =
      Some {| codebuild.BuildEnvironmentVariable.value :=
                s3.Bucket.bucket_name bucket |} ∧
    elements (buckets st) = [bucket].
Proof. on_declared. run_all. Qed.



(** ** Artifacts are written before they are read *)

Lemma produced_before_cons
    (s : StageProps.t Action) (rest : list (StageProps.t Action))
    (i : nat) (n : string) :
  produced_before rest i n → produced_before (s :: rest) (S i) n.
Proof.
  intros (j & s' & Hlt & Hj & Hn).
  exists (S j), s'. split; [lia | by split].
Qed.

Lemma produced_before_head
    (s : StageProps.t Action) (rest : list (StageProps.t Action))
    (i : nat) (n : string) :
  n ∈ output_artifact_names s → produced_before (s :: rest) (S i) n.
Proof. intros Hn. exists 0, s. split; [lia | by split]. Qed.

(** The check is sound: when it passes, a name read by stage [i] was
    available at the start or is written by a stage before [i]. *)
Lemma inputs_produced_earlier_sound
    (stages : list (StageProps.t Action)) :
  ∀ (produced : list string),
    inputs_produced_earlier produced stages = true →
    ∀ (i : nat) (s : StageProps.t Action) (n : string),
      stages !! i = Some s →
      n ∈ input_artifact_names s →
      n ∈ produced ∨ produced_before stages i n.
Proof.
  induction stages as [|s0 rest IH]; intros produced Hchk i s n Hi Hn.
  - by rewrite lookup_nil in Hi.
  - simpl in Hchk. apply andb_prop in Hchk as [Hhead Hrest].
    destruct i as [|i]; simpl in Hi.
    + injection Hi as <-. left.
      rewrite forallb_forall in Hhead.
      apply list_elem_of_In, Hhead in Hn.
      by apply bool_decide_eq_true in Hn.
    + destruct (IH _ Hrest i s n Hi Hn) as [Hin | Hbefore].
      * apply elem_of_app in Hin as [Hin | Hin]; [by left |].
        right. by apply produced_before_head.
      * right. by apply produced_before_cons.
Qed.

(** C4.  In the declared pipeline, every artifact name read by a stage
    is written by a stage that comes strictly before it (or is an
    artifact written by the source action): Source reads nothing,
    Build reads "SourceOutput", which Source writes, and each of the
    two actions of Deploy reads "BuildOutput", which Build writes. *)
Theorem inputs_written_by_earlier_stages (id : string) :
  ∃ st p source build deploy,
    CodepipeStack id = Ok st ∧
    map_to_list (pipelines st) = [("BuildDeployPipeline", p)] ∧
    Pipeline.stages p = [source; build; deploy] ∧
    (∀ (i : nat) (s : StageProps.t Action) (n : string),
       Pipeline.stages p !! i = Some s →
       n ∈ input_artifact_names s →
       produced_before (Pipeline.stages p) i n ∨
       n ∈ source_artifact_names p) ∧
    input_artifact_names source = [] ∧
    output_artifact_names source = ["SourceOutput"] ∧
    input_artifact_names build = ["SourceOutput"] ∧
    output_artifact_names build = ["BuildOutput"] ∧
    input_names <$> StageProps.actions deploy =
      [["BuildOutput"]; ["BuildOutput"]].
Proof.
  on_declared.
  split; [run |]. split; [run |]. split; [| run_all].
  intros i s n Hi Hn. left.
  lazymatch goal with
  | |- produced_before ?stages _ _ =>
      assert (inputs_produced_earlier [] stages = true) as Hchk by run;
      destruct (inputs_produced_earlier_sound _ _ Hchk i s n Hi Hn)
        as [Hstart | Hbefore]
  end.
  - by apply elem_of_nil in Hstart.
  - exact Hbefore.
Qed.

(** ** The build *)

(** C5 as stated, that the Build stage runs exactly the two commands
    "pip install -r requirements.txt" and "python build.py", does not
    hold for the stack built with id "CodepipeStack": the build phase
    starts with an "echo" command. *)
Lemma build_stage_commands_not_two :
  ¬ ∃ st p build,
      CodepipeStack "CodepipeStack" = Ok st ∧
      map_to_list (pipelines st) = [("BuildDeployPipeline", p)] ∧
      Pipeline.stages p !! 1 = Some build ∧
      StageProps.stage_name build = "Build" ∧
      stage_commands st build =
        ["pip install -r requirements.txt"; "python build.py"].
Proof.
  intros (st & p & build & Hst & Hp & Hbuild & _ & Hcommands).
  rewrite CodepipeStack_declared in Hst.
  assert (st = declared "CodepipeStack") as -> by congruence.
  vm_compute in Hp. injection Hp as <-.
  vm_compute in Hbuild. injection Hbuild as <-.
  vm_compute in Hcommands. discriminate Hcommands.
Qed.

(** C5 (amended).  The command list run by the Build stage is exactly
    the three commands "pip install -r requirements.txt", "echo Building
    the Python app..." and "python build.py", in that order: the first
    is the install phase, the other two are the build phase. *)
Theorem build_stage_commands_three (id : string) :
  ∃ st p build name project input outputs pr,
    CodepipeStack id = Ok st ∧
    map_to_list (pipelines st) = [("BuildDeployPipeline", p)] ∧
    Pipeline.stages p !! 1 = Some build ∧
    StageProps.stage_name build = "Build" ∧
    stage_commands st build =
      ["pip install -r requirements.txt";
       "echo Building the Python app...";
       "python build.py"] ∧
    StageProps.actions build = [CodeBuildAction name project input outputs] ∧
    children st !! project = Some (PipelineProject pr) ∧
    codebuild.phase_commands (codebuild.PipelineProject.build_spec pr)
      "install" = ["pip install -r requirements.txt"] ∧
    codebuild.phase_commands (codebuild.PipelineProject.build_spec pr)
      "build" = ["echo Building the Python app..."; "python build.py"].
Proof. on_declared. run_all. Qed.

(** C6.  The files of the build artifact are declared by the build spec
    of the project of the build action as one glob, every file at any
    depth, under the base directory "dist". *)
Theorem build_artifact_glob_and_base_directory (id : string) :
  ∃ st p build name project input outputs pr,
    CodepipeStack id = Ok st ∧
    map_to_list (pipelines st) = [("BuildDeployPipeline", p)] ∧
    Pipeline.stages p !! 1 = Some build ∧
    StageProps.actions build = [CodeBuildAction name project input outputs] ∧
    variant <$> StageProps.actions build = [Some BuildExecute] ∧
    children st !! project = Some (PipelineProject pr) ∧
    codebuild.artifact_files (codebuild.PipelineProject.build_spec pr) =
      Some ["**/*"] ∧
    codebuild.artifact_base_directory
      (codebuild.PipelineProject.build_spec pr) = Some "dist".
Proof. on_declared. run_all. Qed.

(** ** Outputs *)

(** C7.  The stack has exactly one output, "InstancePublicIp"; its value
    is the public IP address of the one instance of the stack. *)
Theorem single_output_instance_public_ip (id : string) :
  ∃ st instance inst,
    CodepipeStack id = Ok st ∧
    map_to_list (instances st) = [(instance, inst)] ∧
    map_to_list (stack_outputs st) =
      [("InstancePublicIp", ec2.Instance.instance_public_ip instance)] ∧
    tokens (ec2.Instance.instance_public_ip instance) =
      [{| target := instance; attribute := InstancePublicIp |}].
Proof. on_declared. run_all. Qed.

(** ** No Lambda trigger *)

(** A stack without Lambda functions has none among its constructs. *)
Lemma functions_empty (st : Stack) :
  functions st = ∅ →
  ∀ (k : string) (c : Construct),
    children st !! k = Some c → is_function c = false.
Proof.
  intros Hnone k c Hk.
  destruct c as [| | |f| | | | |]; try reflexivity.
  assert (functions st !! k = Some f) as Hf.
  { unfold functions. by rewrite lookup_omap, Hk. }
  rewrite Hnone, lookup_empty in Hf. discriminate Hf.
Qed.

(** C8.  The Build stage has exactly one action, the build; no construct
    of the stack is a Lambda function and no action of the pipeline is a
    Lambda invocation. *)
Theorem no_lambda_trigger (id : string) :
  ∃ st p build a,
    CodepipeStack id = Ok st ∧
    map_to_list (pipelines st) = [("BuildDeployPipeline", p)] ∧
    Pipeline.stages p !! 1 = Some build ∧
    StageProps.stage_name build = "Build" ∧
    StageProps.actions build = [a] ∧
    variant a = Some BuildExecute ∧
    (∀ (k : string) (c : Construct),
       children st !! k = Some c → is_function c = false) ∧
    Forall (λ a, is_lambda_invoke a = false) (all_actions p).
Proof.
  on_declared.
  do 5 (split; [run |]). split.
  - apply functions_empty. run.
  - vm_compute (all_actions _). repeat constructor.
Qed.

(** ** One bucket *)

(** The tokens of a concatenation are those of its parts. *)
Lemma tokens_app (s1 s2 : Str) : tokens (s1 ++ s2) = tokens s1 ++ tokens s2.
Proof. unfold tokens. apply omap_app. Qed.

(** Two bucket names are the same string only for the same bucket. *)
Lemma bucket_name_inj (b1 b2 : string) :
  s3.Bucket.bucket_name b1 = s3.Bucket.bucket_name b2 → b1 = b2.
Proof. unfold s3.Bucket.bucket_name. intros Heq. by injection Heq. Qed.

(** C9.  The stack declares one bucket.  The value of "BUCKET_NAME" in
    the project of the build action is the name of that bucket, the
    publishing action of the Deploy stage targets that bucket, the
    instance is granted read access to that bucket (and to nothing
    else), and the command of the startup script of the instance that
    downloads "dist/djangopro.tar.gz" names that bucket. *)
Theorem one_bucket_everywhere (id : string) :
  ∃ st bucket p build deploy bname project binput boutputs pr
     dname dinput dextract infra instance inst,
    CodepipeStack id = Ok st ∧
    elements (buckets st) = [bucket] ∧
    children st !! bucket = Some Bucket ∧
    map_to_list (pipelines st) = [("BuildDeployPipeline", p)] ∧
    Pipeline.stages p !! 1 = Some build ∧
    StageProps.actions build =
      [CodeBuildAction bname project binput boutputs] ∧
    children st !! project = Some (PipelineProject pr) ∧
    codebuild.PipelineProject.environment_variables pr !! "BUCKET_NAME" =
      Some {| codebuild.BuildEnvironmentVariable.value :=
                s3.Bucket.bucket_name bucket |} ∧
    Pipeline.stages p !! 2 = Some deploy ∧
    StageProps.actions deploy =
      [S3DeployAction dname dinput bucket dextract; infra] ∧
    map_to_list (instances st) = [(instance, inst)] ∧
    grants_of st instance =
      [{| Grant.resource := bucket;
          Grant.grantee := instance;
          Grant.access := Grant.READ |}] ∧
    ec2.UserData.lines (ec2.Instance.user_data inst) !! 1 =
      Some (lit "aws s3 cp s3://" ++ s3.Bucket.bucket_name bucket
            ++ lit "/dist/djangopro.tar.gz /tmp/djangopro.tar.gz") ∧
    (ec2.UserData.lines (ec2.Instance.user_data inst) ≫= tokens) =
      [{| target := bucket; attribute := BucketName |}].
Proof. on_declared. run_all. Qed.

(** ** The security group of the instance *)

(** A rule admits the TCP ports of its range, unless it is a UDP rule. *)
Lemma admits_tcp_range (r : ec2.IngressRule.t) (port : Z) :
  ec2.IngressRule.admits_tcp r port = true ↔
  ec2.Port.protocol (ec2.IngressRule.connection r) ≠ ec2.UDP ∧
  (ec2.Port.from_port (ec2.IngressRule.connection r) ≤ port
   ≤ ec2.Port.to_port (ec2.IngressRule.connection r))%Z.
Proof.
  unfold ec2.IngressRule.admits_tcp.
  destruct (ec2.Port.protocol (ec2.IngressRule.connection r));
    rewrite ?andb_true_iff, ?Z.leb_le; intuition congruence.
Qed.

(** C10.  The security group of the instance allows all outbound
    traffic and has a single inbound rule: TCP port 22 from any IPv4
    address, 0.0.0.0/0.  So the only TCP port it lets in is 22, and not
    8000, the port on which the last command of the startup script
    serves the application. *)
Theorem instance_security_group_ssh_only (id : string) :
  ∃ st instance inst g,
    CodepipeStack id = Ok st ∧
    map_to_list (instances st) = [(instance, inst)] ∧
    children st !! ec2.Instance.security_group inst =
      Some (SecurityGroup g) ∧
    ec2.SecurityGroup.allow_all_outbound g = true ∧
    ec2.SecurityGroup.ingress_rules g =
      [{| ec2.IngressRule.peer := ec2.ipv4 "0.0.0.0/0";
          ec2.IngressRule.connection :=
            {| ec2.Port.protocol := ec2.TCP;
               ec2.Port.from_port := 22;
               ec2.Port.to_port := 22 |};
          ec2.IngressRule.description := "Allow SSH access";
          ec2.IngressRule.remote_rule := false |}] ∧
    last (ec2.UserData.lines (ec2.Instance.user_data inst)) =
      Some (lit "python3 manage.py runserver 0.0.0.0:8000") ∧
    (∀ port : Z,
       Exists (λ r, ec2.IngressRule.admits_tcp r port = true)
         (ec2.SecurityGroup.ingress_rules g) ↔ port = 22%Z) ∧
    Forall (λ r, ec2.IngressRule.admits_tcp r 8000 = false)
      (ec2.SecurityGroup.ingress_rules g).
Proof.
  on_declared.
  do 5 (split; [run |]). split.
  - intros port. vm_compute (ec2.SecurityGroup.ingress_rules _).
    rewrite Exists_cons, Exists_nil, admits_tcp_range. cbn.
    split; [intros [[_ Hport] | []]; lia | intros ->; left; split; [done | lia]].
  - vm_compute (ec2.SecurityGroup.ingress_rules _). repeat constructor.
Qed.

(** * Further properties of the constructor *)

(** ** References *)

(** X6.  Every construct that a construct of the stack is given, as an
    argument, as an argument of one of the actions of the pipeline or
    through a token in one of its strings, is registered in the stack
    and is of the class it is used as. *)
Theorem references_resolve (id : string) :
  ∃ st,
    CodepipeStack id = Ok st ∧
    ∀ (k : string) (c : Construct) (r : string * string),
      children st !! k = Some c →
      r ∈ construct_refs c →
      resolves st r = true.
Proof.
  on_declared. intros k c r Hk Hr.
  assert (forallb
            (λ kc, forallb (resolves (declared id)) (construct_refs kc.2))
            (map_to_list (children (declared id))) = true) as Hall by run.
  rewrite forallb_forall in Hall.
  apply elem_of_map_to_list, list_elem_of_In, Hall in Hk.
  rewrite forallb_forall in Hk. by apply Hk, list_elem_of_In.
Qed.

(** ** Network and repository *)

(** X7.  The instance and its security group are in the same VPC, the
    one with address range 10.0.0.0/16. *)
Theorem instance_and_security_group_share_vpc (id : string) :
  ∃ st instance inst g v,
    CodepipeStack id = Ok st ∧
    map_to_list (instances st) = [(instance, inst)] ∧
    children st !! ec2.Instance.security_group inst =
      Some (SecurityGroup g) ∧
    ec2.SecurityGroup.vpc g = ec2.Instance.vpc inst ∧
    children st !! ec2.Instance.vpc inst = Some (Vpc v) ∧
    ec2.Vpc.cidr v = "10.0.0.0/16".
Proof. on_declared. run_all. Qed.

(** X8.  The repository that the source action checks out is seeded on
    the branch that the action checks out, and the [grant_read] call of
    the body gives the project of the build action read access to that
    repository. *)
Theorem source_repository_branch_and_build_grant (id : string) :
  ∃ st p source build deploy sname branch repo output r directory
     bname project input outputs,
    CodepipeStack id = Ok st ∧
    map_to_list (pipelines st) = [("BuildDeployPipeline", p)] ∧
    Pipeline.stages p = [source; build; deploy] ∧
    StageProps.actions source =
      [CodeCommitSourceAction sname branch repo output] ∧
    children st !! repo = Some (Repository r) ∧
    codecommit.Repository.code r =
      codecommit.from_directory directory branch ∧
    StageProps.actions build =
      [CodeBuildAction bname project input outputs] ∧
    {| Grant.resource := repo;
       Grant.grantee := project;
       Grant.access := Grant.READ |} ∈ grants st.
Proof.
  on_declared. do 6 (split; [run |]).
  vm_compute (grants _). repeat constructor.
Qed.

(** ** Names *)

(** X10.  In the pipeline, no two stages have the same name, no two
    actions of one stage have the same name, and no artifact name is
    written by two actions. *)
Theorem names_unique (id : string) :
  ∃ st p,
    CodepipeStack id = Ok st ∧
    map_to_list (pipelines st) = [("BuildDeployPipeline", p)] ∧
    NoDup (StageProps.stage_name <$> Pipeline.stages p) ∧
    Forall (λ s, NoDup (action_name <$> StageProps.actions s))
      (Pipeline.stages p) ∧
    NoDup (Pipeline.stages p ≫= output_artifact_names).
Proof.
  on_declared. split; [run |].
  split; [| split].
  - apply (bool_decide_unpack _). vm_compute. exact I.
  - vm_compute (Pipeline.stages _).
    repeat constructor; apply (bool_decide_unpack _); vm_compute; exact I.
  - apply (bool_decide_unpack _). vm_compute. exact I.
Qed.

(** ** The build spec *)

(** X11.  Every phase that the build spec declares is a phase that a
    build runs, and the commands the Build stage runs are the commands
    of the declared phases in the order in which the spec lists them:
    no declared command is left out or moved. *)
Theorem build_runs_declared_commands_in_order (id : string) :
  ∃ st p build name project input outputs pr,
    CodepipeStack id = Ok st ∧
    map_to_list (pipelines st) = [("BuildDeployPipeline", p)] ∧
    Pipeline.stages p !! 1 = Some build ∧
    StageProps.actions build = [CodeBuildAction name project input outputs] ∧
    children st !! project = Some (PipelineProject pr) ∧
    declared_phases (codebuild.PipelineProject.build_spec pr) ⊆
      codebuild.phase_order ∧
    stage_commands st build =
      declared_commands (codebuild.PipelineProject.build_spec pr).
Proof.
  on_declared. do 4 (split; [run |]). split; [| run].
  apply (bool_decide_unpack _). vm_compute. exact I.
Qed.
